(** * Session relay endpoint (api/index.py): model and verified properties

    The program is one FastAPI application with a single route,
    [POST /chatkit/session], wrapped in Starlette's CORS middleware.  The
    handler reads the provider credential from the process environment,
    builds an SDK client, asks the provider for a ChatKit session and relays
    the session's client secret.

    The embedding is shallow: Python values are Rocq data, the handler is a
    program in a small monad that threads the process state, may raise, and
    records the observable effects (environment reads, provider calls).  The
    provider behind the SDK is a parameter of the development. *)

From stdpp Require Import gmap strings list pretty.
From Stdlib Require Import ZArith String Ascii.

Set Warnings "-register-all".

Local Open Scope string_scope.
Local Open Scope Z_scope.

(** ** Python and JSON values *)

Module Py.

(** Decoded JSON, as [json.loads] hands it to the framework and as the
    handler's dict literals are encoded on the way out.  An object keeps
    its members in document order.  [json.loads] also reads the literals
    [NaN], [Infinity] and [-Infinity]; they become floats that are not
    finite.  A string stands for text that has a UTF-8 encoding, and a
    value is nested no deeper than the interpreter lets the framework walk
    it. *)
Inductive json : Type :=
| JNull
| JBool (b : bool)
| JInt (n : Z)
| JFloat (mantissa exponent : Z)
| JNaN
| JInfinity (negative : bool)
| JStr (s : string)
| JArr (items : list json)
| JObj (members : list (string * json)).

(** Whether [json.dumps(v, allow_nan=False)] accepts the value: it raises
    [ValueError] on a float that is not finite, wherever it sits. *)
Fixpoint finite (v : json) : bool :=
  match v with
  | JNaN | JInfinity _ => false
  | JArr items => forallb finite items
  | JObj members => forallb (fun kv => finite (snd kv)) members
  | _ => true
  end.

(** [d.get(k)] on the dict decoded from an object: a later member with the
    same name overrides an earlier one. *)
Fixpoint dict_get (k : string) (members : list (string * json)) : option json :=
  match members with
  | [] => None
  | (k', v) :: rest =>
      match dict_get k rest with
      | Some w => Some w
      | None => if String.eqb k k' then Some v else None
      end
  end.

Definition has_key (k : string) (members : list (string * json)) : bool :=
  match dict_get k members with Some _ => true | None => false end.

(** [str.lower] on the ASCII range. *)
Definition ascii_lower (c : ascii) : ascii :=
  let n := nat_of_ascii c in
  if (Nat.leb 65 n && Nat.leb n 90)%bool then ascii_of_nat (n + 32) else c.

Fixpoint lower (s : string) : string :=
  match s with
  | EmptyString => EmptyString
  | String c rest => String (ascii_lower c) (lower rest)
  end.

(** [sep.join(xs)] *)
Fixpoint join (sep : string) (xs : list string) : string :=
  match xs with
  | [] => ""
  | [x] => x
  | x :: rest => x ++ sep ++ join sep rest
  end.

(** [s.split(",")]: the pieces between commas, empty pieces kept. *)
Fixpoint split_comma (s : string) : list string :=
  match s with
  | EmptyString => [""]
  | String c rest =>
      if Ascii.eqb c "," then "" :: split_comma rest
      else match split_comma rest with
           | [] => [String c ""]
           | piece :: pieces => String c piece :: pieces
           end
  end.

Definition is_space (c : ascii) : bool :=
  let n := nat_of_ascii c in
  (Nat.eqb n 32 || (Nat.leb 9 n && Nat.leb n 13))%bool.

Fixpoint lstrip (s : string) : string :=
  match s with
  | EmptyString => EmptyString
  | String c rest => if is_space c then lstrip rest else s
  end.

Fixpoint rstrip (s : string) : string :=
  match s with
  | EmptyString => EmptyString
  | String c rest =>
      match rstrip rest with
      | EmptyString => if is_space c then EmptyString else String c EmptyString
      | kept => String c kept
      end
  end.

(** [s.strip()] on ASCII white space. *)
Definition strip (s : string) : string := rstrip (lstrip s).

(** [sorted(set(xs))]: ascending by code point, without repetitions. *)
Fixpoint sorted_insert (x : string) (xs : list string) : list string :=
  match xs with
  | [] => [x]
  | y :: rest =>
      if String.eqb x y then xs
      else if String.ltb x y then x :: xs
      else y :: sorted_insert x rest
  end.

Definition sorted_set (xs : list string) : list string :=
  foldr sorted_insert [] xs.

(** [x in xs] for a sequence of strings. *)
Definition str_in (x : string) (xs : list string) : bool :=
  existsb (String.eqb x) xs.

(** [len(xs) == 0], the falsiness of a sequence. *)
Definition is_empty {A} (xs : list A) : bool :=
  match xs with [] => true | _ => false end.

End Py.
Export Py.

(** ** Effects *)

(** The provider's session object; the handler uses [client_secret] only. *)
Record ChatSession := {
  session_id : string;
  client_secret : string;
  expires_at : Z;
}.

(** Failures of the SDK call [client.chatkit.sessions.create]. *)
Inductive provider_error : Type :=
| APIConnectionError (msg : string)
| APITimeoutError
| APIStatusError (status_code : Z) (msg : string).

(** The body of a request as the framework hands it to validation: nothing
    for an empty body, the decoded value for a JSON body, the bytes
    themselves (here: their text, if they are UTF-8) for a body sent under a
    content type that is not JSON. *)
Inductive received : Type :=
| BodyNone
| BodyJson (j : json)
| BodyBytes (text : option string).

(** Errors reported by request validation.  An error names the place and
    carries the input that was rejected there; the error for a body that
    [json.loads] refuses with [JSONDecodeError] carries the position and
    the message instead. *)
Inductive validation_error : Type :=
| Missing (loc : list string) (input : received)
| StringType (loc : list string) (input : received)
| ModelAttributesType (loc : list string) (input : received)
| JsonInvalid (pos : Z) (msg : string).

Inductive exn : Type :=
| RuntimeError (msg : string)
| ValueError (msg : string)
| OpenAIError (e : provider_error)
| RequestValidationError (errors : list validation_error)
| HTTPException (status_code : Z) (detail : string) (headers : list (string * string)).

(** Observable effects of a run, in program order. *)
Inductive event : Type :=
| GetEnv (name : string)
| SessionsCreate (api_key : string) (params : json).

(** Process-wide state: [os.environ]. *)
Record process := { environ : gmap string string }.

Inductive result (A : Type) : Type :=
| Return (a : A)
| Raise (e : exn).
Arguments Return {A} a.
Arguments Raise {A} e.

(** A computation starts from a process state and yields its result, the
    process state it leaves and the effects it performed. *)
Definition M (A : Type) : Type := process -> result A * process * list event.

Definition ret {A} (a : A) : M A := fun st => (Return a, st, []).

Definition raise {A} (e : exn) : M A := fun st => (Raise e, st, []).

Definition bind {A B} (c : M A) (k : A -> M B) : M B :=
  fun st =>
    match c st with
    | (Return a, st1, t1) =>
        match k a st1 with
        | (r, st2, t2) => (r, st2, (t1 ++ t2)%list)
        end
    | (Raise e, st1, t1) => (Raise e, st1, t1)
    end.

Notation "'let*' x ':=' c 'in' k" := (bind c (fun x => k))
  (at level 10, x name, c at level 100, k at level 200).

(** [try: c  except Exception as e: h e] *)
Definition catch {A} (c : M A) (h : exn -> M A) : M A :=
  fun st =>
    match c st with
    | (Return a, st1, t1) => (Return a, st1, t1)
    | (Raise e, st1, t1) =>
        match h e st1 with
        | (r, st2, t2) => (r, st2, (t1 ++ t2)%list)
        end
    end.

(** [os.getenv(name)] *)
Definition os_getenv (name : string) : M (option string) :=
  fun st => (Return (environ st !! name), st, [GetEnv name]).

Definition outcome {A} (x : result A * process * list event) : result A := x.1.1.
Definition final_state {A} (x : result A * process * list event) : process := x.1.2.
Definition trace {A} (x : result A * process * list event) : list event := x.2.

(** Projections of a trace. *)
Definition provider_calls (t : list event) : list (string * json) :=
  omap (fun e => match e with SessionsCreate k p => Some (k, p) | _ => None end) t.


(** ** HTTP messages *)

(** What reading the body of a request comes to (FastAPI's request
    handler): the body is received, as nothing, as the value [json.loads]
    returned, or as bytes when the content type is not JSON; or
    [json.loads] raised [JSONDecodeError]; or reading or decoding failed
    with another exception (an integer literal beyond the interpreter's
    digit limit, nesting beyond its recursion limit, a client that went
    away).  A value under [BodyJson] is one [json.loads] did return. *)
Inductive payload : Type :=
| Received (b : received)
| Undecodable (pos : Z) (msg : string)
| ParseFailure.

(** An inbound request as the ASGI server presents it.  Header names arrive
    in lower case.  The body is given by what reading it comes to. *)
Record Request := {
  method : string;
  path : string;
  req_headers : list (string * string);
  req_payload : payload;
}.

(** The decoded JSON body of a request, if it has one. *)
Definition body (request : Request) : option json :=
  match req_payload request with
  | Received (BodyJson j) => Some j
  | _ => None
  end.

(** The payload of a request whose body is empty ([None]) or is decoded to
    a JSON value. *)
Definition payload_of (b : option json) : payload :=
  match b with
  | Some j => Received (BodyJson j)
  | None => Received BodyNone
  end.

Inductive content : Type :=
| JSONContent (j : json)
| TextContent (s : string)
| ValidationDetail (errors : list validation_error).

(** An outbound response.  [headers] are the raw headers, names in lower
    case; the entity headers (content-type, content-length) are left out. *)
Record Response := {
  status_code : Z;
  headers : list (string * string);
  resp_body : content;
}.

(** [Headers.get(key)]: the first header of that name, names compared in
    lower case. *)
Fixpoint headers_get (key : string) (hs : list (string * string)) : option string :=
  match hs with
  | [] => None
  | (k, v) :: rest => if String.eqb k (lower key) then Some v else headers_get key rest
  end.

(** [key in headers] *)
Definition headers_mem (key : string) (hs : list (string * string)) : bool :=
  match headers_get key hs with Some _ => true | None => false end.

(** [d[k] = v] on a dict of strings: an existing key keeps its place. *)
Fixpoint dict_set (k v : string) (d : list (string * string)) : list (string * string) :=
  match d with
  | [] => [(k, v)]
  | (k', v') :: rest =>
      if String.eqb k k' then (k, v) :: rest else (k', v') :: dict_set k v rest
  end.

(** [d.update(other)] *)
Definition dict_update (other d : list (string * string)) : list (string * string) :=
  foldl (fun acc kv => dict_set kv.1 kv.2 acc) d other.

(** [MutableHeaders.__setitem__]: the first header of that name takes the
    value and the others of that name go; a new name is appended. *)
Fixpoint raw_set (key v : string) (hs : list (string * string)) : list (string * string) :=
  match hs with
  | [] => [(lower key, v)]
  | (k, v') :: rest =>
      if String.eqb k (lower key)
      then (k, v) :: filter (fun kv => negb (String.eqb kv.1 (lower key))) rest
      else (k, v') :: raw_set key v rest
  end.

(** [MutableHeaders.update(d)] *)
Definition raw_update (d hs : list (string * string)) : list (string * string) :=
  foldl (fun acc kv => raw_set kv.1 kv.2 acc) hs d.

(** [MutableHeaders.add_vary_header(vary)] *)
Definition add_vary_header (vary : string) (hs : list (string * string)) : list (string * string) :=
  match headers_get "vary" hs with
  | Some existing => raw_set "vary" (join ", " [existing; vary]) hs
  | None => raw_set "vary" vary hs
  end.

(** Response constructors: the given headers become raw headers. *)
Definition raw_of_dict (d : list (string * string)) : list (string * string) :=
  map (fun kv => (lower kv.1, kv.2)) d.

Definition PlainTextResponse (text : string) (status : Z) (hs : list (string * string)) : Response :=
  {| status_code := status; headers := raw_of_dict hs; resp_body := TextContent text |}.

Definition JSONResponse (c : content) (status : Z) (hs : list (string * string)) : Response :=
  {| status_code := status; headers := raw_of_dict hs; resp_body := c |}.

(** Whether an echoed input can be put into a JSON body: bytes must decode
    as UTF-8 ([jsonable_encoder]), and a JSON value must hold no float that
    is not finite ([JSONResponse.render] dumps with [allow_nan=False]). *)
Definition input_renders (i : received) : bool :=
  match i with
  | BodyNone => true
  | BodyJson j => finite j
  | BodyBytes text => match text with Some _ => true | None => false end
  end.

Definition error_renders (e : validation_error) : bool :=
  match e with
  | Missing _ i | StringType _ i | ModelAttributesType _ i => input_renders i
  | JsonInvalid _ _ => true
  end.

(** ** Starlette: CORSMiddleware *)

Module CORS.

Definition ALL_METHODS : list string :=
  ["DELETE"; "GET"; "HEAD"; "OPTIONS"; "PATCH"; "POST"; "PUT"].

Definition SAFELISTED_HEADERS : list string :=
  ["Accept"; "Accept-Language"; "Content-Language"; "Content-Type"].

(** The attributes [__init__] stores on the middleware. *)
Record CORSMiddleware := {
  allow_origins : list string;
  allow_methods : list string;
  allow_headers : list string;
  allow_all_origins : bool;
  allow_all_headers : bool;
  preflight_explicit_allow_origin : bool;
  simple_headers : list (string * string);
  preflight_headers : list (string * string);
}.

(** [CORSMiddleware.__init__], without [allow_origin_regex] (the program
    leaves it at [None]). *)
Definition init (origins methods hdrs : list string) (allow_credentials : bool)
    (expose_headers : list string) (max_age : Z) : CORSMiddleware :=
  let methods := if str_in "*" methods then ALL_METHODS else methods in
  let all_origins := str_in "*" origins in
  let all_headers := str_in "*" hdrs in
  let explicit := (negb all_origins || allow_credentials)%bool in
  let simple0 := [] in
  let simple1 :=
    if all_origins then dict_set "Access-Control-Allow-Origin" "*" simple0 else simple0 in
  let simple2 :=
    if allow_credentials then dict_set "Access-Control-Allow-Credentials" "true" simple1
    else simple1 in
  let simple3 :=
    if negb (is_empty expose_headers)
    then dict_set "Access-Control-Expose-Headers" (join ", " expose_headers) simple2
    else simple2 in
  let pre0 :=
    if explicit then dict_set "Vary" "Origin" []
    else dict_set "Access-Control-Allow-Origin" "*" [] in
  let pre1 :=
    dict_update [("Access-Control-Allow-Methods", join ", " methods);
                 ("Access-Control-Max-Age", pretty max_age)] pre0 in
  let sorted_headers := sorted_set (SAFELISTED_HEADERS ++ hdrs)%list in
  let pre2 :=
    if (negb (is_empty sorted_headers) && negb all_headers)%bool
    then dict_set "Access-Control-Allow-Headers" (join ", " sorted_headers) pre1
    else pre1 in
  let pre3 :=
    if allow_credentials then dict_set "Access-Control-Allow-Credentials" "true" pre2
    else pre2 in
  {| allow_origins := origins;
     allow_methods := methods;
     allow_headers := map lower sorted_headers;
     allow_all_origins := all_origins;
     allow_all_headers := all_headers;
     preflight_explicit_allow_origin := explicit;
     simple_headers := simple3;
     preflight_headers := pre3 |}.

Definition is_allowed_origin (self : CORSMiddleware) (origin : string) : bool :=
  if allow_all_origins self then true else str_in origin (allow_origins self).

(** [preflight_response].  [__call__] reaches it only when both [origin] and
    [access-control-request-method] are present; an absent header reads as
    the empty string here. *)
Definition preflight_response (self : CORSMiddleware) (request_headers : list (string * string))
    : Response :=
  let requested_origin := default "" (headers_get "origin" request_headers) in
  let requested_method :=
    default "" (headers_get "access-control-request-method" request_headers) in
  let requested_headers := headers_get "access-control-request-headers" request_headers in
  let hs0 := preflight_headers self in
  let '(hs1, failures1) :=
    if is_allowed_origin self requested_origin
    then (if preflight_explicit_allow_origin self
          then dict_set "Access-Control-Allow-Origin" requested_origin hs0
          else hs0, [])
    else (hs0, ["origin"]) in
  let failures2 :=
    if negb (str_in requested_method (allow_methods self))
    then (failures1 ++ ["method"])%list else failures1 in
  let '(hs2, failures3) :=
    match requested_headers with
    | Some rh =>
        if allow_all_headers self
        then (dict_set "Access-Control-Allow-Headers" rh hs1, failures2)
        else if forallb (fun h => str_in (strip h) (allow_headers self))
                        (map lower (split_comma rh))
             then (hs1, failures2)
             else (hs1, (failures2 ++ ["headers"])%list)
    | None => (hs1, failures2)
    end in
  if negb (is_empty failures3)
  then PlainTextResponse ("Disallowed CORS " ++ join ", " failures3) 400 hs2
  else PlainTextResponse "OK" 200 hs2.

Definition allow_explicit_origin (origin : string) (hs : list (string * string))
    : list (string * string) :=
  add_vary_header "Origin" (raw_set "Access-Control-Allow-Origin" origin hs).

(** [send]: the headers put on the wrapped application's response. *)
Definition send (self : CORSMiddleware) (request_headers : list (string * string))
    (message : Response) : Response :=
  let hs := raw_update (simple_headers self) (headers message) in
  let origin := default "" (headers_get "Origin" request_headers) in
  let has_cookie := headers_mem "cookie" request_headers in
  let hs' :=
    if (allow_all_origins self && has_cookie)%bool then allow_explicit_origin origin hs
    else if (negb (allow_all_origins self) && is_allowed_origin self origin)%bool
         then allow_explicit_origin origin hs
         else hs in
  {| status_code := status_code message; headers := hs'; resp_body := resp_body message |}.

(** [simple_response] *)
Definition simple_response (self : CORSMiddleware) (app : Request -> M Response)
    (request : Request) : M Response :=
  let* message := app request in
  ret (send self (req_headers request) message).

(** [__call__] *)
Definition call (self : CORSMiddleware) (app : Request -> M Response)
    (request : Request) : M Response :=
  match headers_get "origin" (req_headers request) with
  | None => app request
  | Some _ =>
      if (String.eqb (method request) "OPTIONS"
          && headers_mem "access-control-request-method" (req_headers request))%bool
      then ret (preflight_response self (req_headers request))
      else simple_response self app request
  end.

End CORS.

(** ** FastAPI: routing, request validation and error responses *)

Module FastAPI.

Record Route := {
  route_path : string;
  route_methods : list string;
  route_app : Request -> M Response;
}.

(** The application object: middleware added by the program, outermost
    first, and the routes the program declares.  The documentation routes
    that [FastAPI()] installs by itself are not part of the program and are
    left out, so the model speaks about the paths of declared routes. *)
Record App := {
  user_middleware : list CORS.CORSMiddleware;
  routes : list Route;
}.

(** [FastAPI()] *)
Definition new : App := {| user_middleware := []; routes := [] |}.

(** [app.add_middleware(CORSMiddleware, ...)] *)
Definition add_middleware (mw : CORS.CORSMiddleware) (app : App) : App :=
  {| user_middleware := mw :: user_middleware app; routes := routes app |}.

(** Reading the body: [JSONDecodeError] becomes a validation error, any
    other exception the 400 "There was an error parsing the body". *)
Definition read_body (request : Request) : M received :=
  match req_payload request with
  | Received b => ret b
  | Undecodable pos msg => raise (RequestValidationError [JsonInvalid pos msg])
  | ParseFailure => raise (HTTPException 400 "There was an error parsing the body" [])
  end.

(** Validation of the received body against the model of the body
    parameter.  Bytes are no dict: every model rejects them. *)
Definition solve_body {T : Type} (validate : option json -> list validation_error + T)
    (b : received) : list validation_error + T :=
  match b with
  | BodyNone => validate None
  | BodyJson j => validate (Some j)
  | BodyBytes text => inl [ModelAttributesType ["body"] (BodyBytes text)]
  end.

(** The request handler FastAPI builds for an endpoint with one body
    parameter of a model type: the body is read and validated first, the
    endpoint runs on the validated model only, and the value it returns is
    sent as JSON with status 200. *)
Definition request_handler {T : Type} (validate : option json -> list validation_error + T)
    (endpoint : T -> M json) (request : Request) : M Response :=
  let* b := read_body request in
  match solve_body validate b with
  | inl errors => raise (RequestValidationError errors)
  | inr model =>
      let* value := endpoint model in
      ret (JSONResponse (JSONContent value) 200 [])
  end.

(** What the request handler decides before the endpoint runs: the
    exception it raises for the body, or the validated model. *)
Definition admission {T : Type} (validate : option json -> list validation_error + T)
    (p : payload) : exn + T :=
  match p with
  | Received b =>
      match solve_body validate b with
      | inl errors => inl (RequestValidationError errors)
      | inr model => inr model
      end
  | Undecodable pos msg => inl (RequestValidationError [JsonInvalid pos msg])
  | ParseFailure => inl (HTTPException 400 "There was an error parsing the body" [])
  end.

(** [@app.post(path)] *)
Definition post {T : Type} (p : string) (validate : option json -> list validation_error + T)
    (endpoint : T -> M json) (app : App) : App :=
  {| user_middleware := user_middleware app;
     routes := (routes app ++
                [{| route_path := p; route_methods := ["POST"];
                    route_app := request_handler validate endpoint |}])%list |}.

Definition full_match (request : Request) (r : Route) : bool :=
  (String.eqb (path request) (route_path r)
   && str_in (method request) (route_methods r))%bool.

Definition partial_match (request : Request) (r : Route) : bool :=
  String.eqb (path request) (route_path r).

(** The router: the first route matching path and method serves the
    request; a path served under other methods only gives 405, an unknown
    path 404. *)
Definition router (rs : list Route) (request : Request) : M Response :=
  match List.find (full_match request) rs with
  | Some r => route_app r request
  | None =>
      match List.find (partial_match request) rs with
      | Some r =>
          raise (HTTPException 405 "Method Not Allowed"
                   [("Allow", join ", " (route_methods r))])
      | None => raise (HTTPException 404 "Not Found" [])
      end
  end.

(** [ExceptionMiddleware] with FastAPI's handlers for [HTTPException] and
    [RequestValidationError]; any other exception passes through.  The
    handler for validation errors puts the errors, with the inputs they
    echo, into a JSON body; when an input does not render, building that
    body raises [ValueError], and the handler fails with it. *)
Definition exception_middleware (app : Request -> M Response) (request : Request)
    : M Response :=
  catch (app request)
    (fun e =>
       match e with
       | HTTPException status detail hs =>
           ret (JSONResponse (JSONContent (JObj [("detail", JStr detail)])) status hs)
       | RequestValidationError errors =>
           if forallb error_renders errors
           then ret (JSONResponse (ValidationDetail errors) 422 [])
           else raise (ValueError "Out of range float values are not JSON compliant")
       | _ => raise e
       end).

(** [ServerErrorMiddleware]: an exception nobody handled becomes the plain
    500 response.  The result of the computation is the response the caller
    receives; that the middleware, after sending it, raises the exception
    again for the server to log is not part of it. *)
Definition server_error_middleware (app : Request -> M Response) (request : Request)
    : M Response :=
  catch (app request)
    (fun _ => ret (PlainTextResponse "Internal Server Error" 500 [])).

(** [build_middleware_stack]: server errors outermost, then the program's
    middleware, then exception handling around the router. *)
Definition build_middleware_stack (app : App) : Request -> M Response :=
  server_error_middleware
    (foldr CORS.call (exception_middleware (router (routes app))) (user_middleware app)).

End FastAPI.

(** ** api/index.py *)

Module Index.

(** [class SessionRequest(BaseModel): deviceId: str] *)
Record SessionRequest := { deviceId : string }.

(** Validation of a decoded body against [SessionRequest], as pydantic 2
    does it for a [str] field: the body must be an object whose [deviceId]
    member is a string (a number or a boolean is not turned into one); other
    members are ignored.  A missing member is reported with the whole body
    as input, a member of another type with that member.  A body that is
    empty, or the JSON [null], which decodes to [None], is reported as
    missing. *)
Definition validate_SessionRequest (b : option json)
    : list validation_error + SessionRequest :=
  match b with
  | None | Some JNull => inl [Missing ["body"] BodyNone]
  | Some (JObj members) =>
      match dict_get "deviceId" members with
      | None => inl [Missing ["body"; "deviceId"] (BodyJson (JObj members))]
      | Some (JStr s) => inr {| deviceId := s |}
      | Some v => inl [StringType ["body"; "deviceId"] (BodyJson v)]
      end
  | Some j => inl [ModelAttributesType ["body"] (BodyJson j)]
  end.

(** The SDK client, as far as the program determines it: the key it was
    built with.  Building it makes no network call. *)
Record OpenAI := { api_key : string }.

(** The middleware configuration of [app.add_middleware(CORSMiddleware, ...)];
    [expose_headers] and [max_age] keep the library's defaults. *)
Definition cors : CORS.CORSMiddleware :=
  CORS.init ["*"] ["*"] ["*"] true [] 600.

(** The workflow identifier, a literal in [create_chatkit_session]. *)
Definition workflow_id : string :=
  "wf_692605e459d481909eb01292c1ae28e307b2a2a9ee1d324".

Definition key_missing_message : string :=
  "OPENAI_API_KEY environment variable is not set. Set it before starting the server.".

Section Program.

(** The provider as the SDK presents it: the outcome of one
    [client.chatkit.sessions.create(params)] under a given API key. *)
Context (provider : string -> json -> provider_error + ChatSession).

(** [client.chatkit.sessions.create(params)] *)
Definition sessions_create (client : OpenAI) (params : json) : M ChatSession :=
  fun st =>
    (match provider (api_key client) params with
     | inr session => Return session
     | inl e => Raise (OpenAIError e)
     end, st, [SessionsCreate (api_key client) params]).

(** [get_openai_client]: [not api_key] holds for [None] and for the empty
    string. *)
Definition get_openai_client : M OpenAI :=
  let* api_key := os_getenv "OPENAI_API_KEY" in
  match api_key with
  | None => raise (RuntimeError key_missing_message)
  | Some key =>
      if String.eqb key "" then raise (RuntimeError key_missing_message)
      else ret {| api_key := key |}
  end.

(** [create_chatkit_session] *)
Definition create_chatkit_session (req : SessionRequest) : M json :=
  let* client := get_openai_client in
  let* session :=
    sessions_create client
      (JObj [("workflow", JObj [("id", JStr workflow_id)]);
             ("user", JStr (deviceId req))]) in
  ret (JObj [("client_secret", JStr (client_secret session))]).

(** Module level: [app = FastAPI()], [app.add_middleware(...)] and the
    [@app.post] registration. *)
Definition app : FastAPI.App :=
  FastAPI.post "/chatkit/session" validate_SessionRequest create_chatkit_session
    (FastAPI.add_middleware cors FastAPI.new).


(** The application as the server calls it. *)
Definition serve : Request -> M Response := FastAPI.build_middleware_stack app.

End Program.

End Index.

(** ** Observations on responses *)


Definition is_server_error (r : Response) : bool :=
  (Z.leb 500 (status_code r) && Z.ltb (status_code r) 600)%bool.

(** Whether the response body is a JSON object with a [client_secret]
    member. *)
Definition has_client_secret (r : Response) : bool :=
  match resp_body r with
  | JSONContent (JObj members) => has_key "client_secret" members
  | _ => false
  end.

(** The [workflow] and [user] members of the parameters of a provider call. *)
Definition workflow_of (call : string * json) : option json :=
  match call.2 with JObj members => dict_get "workflow" members | _ => None end.

Definition user_of (call : string * json) : option json :=
  match call.2 with JObj members => dict_get "user" members | _ => None end.

(** The response of the wrapped application as the CORS layer forwards it
    for a request that is not a preflight: untouched without an [Origin]
    header, with the CORS headers otherwise. *)
Definition forwarded (hs : list (string * string)) (r : Response) : Response :=
  match headers_get "origin" hs with
  | Some _ => CORS.send Index.cors hs r
  | None => r
  end.

(** A [POST] to the endpoint. *)
Definition post_payload (hs : list (string * string)) (p : payload) : Request :=
  {| method := "POST"; path := "/chatkit/session"; req_headers := hs; req_payload := p |}.

(** A request to the endpoint with a given decoded body. *)
Definition post_session (hs : list (string * string)) (b : option json) : Request :=
  post_payload hs (payload_of b).

(** The response to a body that validation rejects with [errors], for a
    request with headers [hs]: the 422 with the errors, under the CORS
    layer, when the errors render, and the plain 500 otherwise. *)
Definition rejection (hs : list (string * string)) (errors : list validation_error)
    : Response :=
  if forallb error_renders errors
  then forwarded hs (JSONResponse (ValidationDetail errors) 422 [])
  else PlainTextResponse "Internal Server Error" 500 [].

(** The response to a request whose body the request handler refuses with
    the exception [e]. *)
Definition refusal (hs : list (string * string)) (e : exn) : Response :=
  match e with
  | RequestValidationError errors => rejection hs errors
  | HTTPException status detail h =>
      forwarded hs (JSONResponse (JSONContent (JObj [("detail", JStr detail)])) status h)
  | _ => PlainTextResponse "Internal Server Error" 500 []
  end.

(** Whether a request is a cross-origin preflight: [OPTIONS] with an
    [Origin] header and an [Access-Control-Request-Method] header. *)
Definition is_preflight (request : Request) : bool :=
  (String.eqb (method request) "OPTIONS"
   && headers_mem "origin" (req_headers request)
   && headers_mem "access-control-request-method" (req_headers request))%bool.

(** The [deviceId] member of a decoded body, when the body is an object
    that has one. *)
Definition deviceId_of (b : option json) : option json :=
  match b with
  | Some (JObj members) => dict_get "deviceId" members
  | _ => None
  end.


(** The input that the error for a refused body echoes: of a decoded body
    the [deviceId] member when there is one (it has the wrong type), the
    whole body otherwise; the bytes of a body that is not JSON; nothing for
    an empty body and for one that could not be read. *)
Definition echoed_input (p : payload) : received :=
  match p with
  | Received (BodyJson j) =>
      match deviceId_of (Some j) with
      | Some v => BodyJson v
      | None => BodyJson j
      end
  | Received b => b
  | Undecodable _ _ | ParseFailure => BodyNone
  end.

(** ** Properties of computations *)

(** Two process states that give the credential variable the same value. *)
Definition same_credential (st st' : process) : Prop :=
  environ st !! "OPENAI_API_KEY" = environ st' !! "OPENAI_API_KEY".

(** The computation leaves the process state as it found it. *)
Definition frame {A} (c : M A) : Prop :=
  forall st, final_state (c st) = st.

(** The computation's result and effects depend on the process state
    through the credential variable only. *)
Definition credential_only {A} (c : M A) : Prop :=
  forall st st', same_credential st st' ->
    outcome (c st) = outcome (c st') /\ trace (c st) = trace (c st').

(** Every effect of the computation satisfies [P]. *)
Definition emits (P : event -> Prop) {A} (c : M A) : Prop :=
  forall st, Forall P (trace (c st)).

(** The effects a served request may have: a read of the credential
    variable, or a provider call made with the fixed workflow and a string
    user. *)
Definition relay_event (e : event) : Prop :=
  match e with
  | GetEnv name => name = "OPENAI_API_KEY"
  | SessionsCreate _ params =>
      exists user,
        params = JObj [("workflow", JObj [("id", JStr Index.workflow_id)]);
                       ("user", JStr user)]
  end.

(** A computation that keeps the process state, depends on it through the
    credential variable only, and whose effects all satisfy [P]. *)
Definition relay_with (P : event -> Prop) {A} (c : M A) : Prop :=
  frame c /\ credential_only c /\ emits P c.

(** ** Sample data *)

Definition sample_session : ChatSession :=
  {| session_id := "cksess_1"; client_secret := "cs_abc"; expires_at := 1700000000 |}.

Definition sample_provider (key : string) (params : json) : provider_error + ChatSession :=
  inr sample_session.

Definition failing_provider (key : string) (params : json) : provider_error + ChatSession :=
  inl (APIStatusError 401 "Incorrect API key provided").

Definition configured_process : process :=
  {| environ := {[ "OPENAI_API_KEY" := "sk-test" ]} |}.

Definition bare_process : process := {| environ := ∅ |}.

(** A process with the credential and further variables. *)
Definition busy_process : process :=
  {| environ := {[ "OPENAI_API_KEY" := "sk-test"; "PATH" := "/usr/bin"; "HOME" := "/root" ]} |}.

Definition sample_body : option json := Some (JObj [("deviceId", JStr "device-123")]).

Definition propfind_preflight : Request :=
  {| method := "OPTIONS"; path := "/chatkit/session";
     req_headers := [("origin", "https://app.example");
                     ("access-control-request-method", "PROPFIND")];
     req_payload := Received BodyNone |}.

Definition post_preflight : Request :=
  {| method := "OPTIONS"; path := "/chatkit/session";
     req_headers := [("origin", "https://app.example");
                     ("access-control-request-method", "POST");
                     ("access-control-request-headers", "content-type")];
     req_payload := Received BodyNone |}.

(** Two provider behaviours that succeed on the same calls and then issue
    the same client secret; the sessions may differ otherwise, and so may
    the errors. *)
Definition same_secrets (p1 p2 : string -> json -> provider_error + ChatSession) : Prop :=
  forall key params,
    match p1 key params, p2 key params with
    | inr s1, inr s2 => client_secret s1 = client_secret s2
    | inl _, inl _ => True
    | _, _ => False
    end.

(** ** Further sample data *)

Definition renewed_session : ChatSession :=
  {| session_id := "cksess_2"; client_secret := "cs_abc"; expires_at := 1800000000 |}.

Definition renewing_provider (key : string) (params : json) : provider_error + ChatSession :=
  inr renewed_session.

Definition unreachable_provider (key : string) (params : json)
    : provider_error + ChatSession :=
  inl (APIConnectionError "Connection error.").

(** A body with members besides [deviceId], among them ones named like the
    parameters of the provider call. *)
Definition crowded_body : option json :=
  Some (JObj [("workflow", JObj [("id", JStr "wf_other")]);
              ("deviceId", JStr "device-123");
              ("user", JStr "root");
              ("client_secret", JStr "cs_forged")]).

Definition cross_origin : list (string * string) :=
  [("origin", "https://app.example")].

Definition cross_origin_cookie : list (string * string) :=
  [("origin", "https://app.example"); ("cookie", "sid=1")].


Definition get_session : Request :=
  {| method := "GET"; path := "/chatkit/session"; req_headers := cross_origin;
     req_payload := Received BodyNone |}.

(** * Verified properties *)

(** ** The monad's combinators *)

Section Combinators.

Context {A B : Type}.

Lemma frame_ret (a : A) : frame (ret a).
Proof. intros st. reflexivity. Qed.

Lemma frame_raise (e : exn) : frame (@raise A e).
Proof. intros st. reflexivity. Qed.

Lemma frame_bind (c : M A) (k : A -> M B) :
  frame c -> (forall a, frame (k a)) -> frame (bind c k).
Proof.
  intros Hc Hk st. unfold final_state, bind.
  specialize (Hc st). unfold final_state in Hc.
  destruct (c st) as [[[a | e] st1] t1]; simpl in *; subst st1; [| reflexivity].
  specialize (Hk a st). unfold final_state in Hk.
  destruct (k a st) as [[r st2] t2]; simpl in *. exact Hk.
Qed.

Lemma frame_catch (c : M A) (h : exn -> M A) :
  frame c -> (forall e, frame (h e)) -> frame (catch c h).
Proof.
  intros Hc Hh st. unfold final_state, catch.
  specialize (Hc st). unfold final_state in Hc.
  destruct (c st) as [[[a | e] st1] t1]; simpl in *; subst st1; [reflexivity |].
  specialize (Hh e st). unfold final_state in Hh.
  destruct (h e st) as [[r st2] t2]; simpl in *. exact Hh.
Qed.

Lemma credential_only_ret (a : A) : credential_only (ret a).
Proof. intros st st' _. split; reflexivity. Qed.

Lemma credential_only_raise (e : exn) : credential_only (@raise A e).
Proof. intros st st' _. split; reflexivity. Qed.

Lemma credential_only_bind (c : M A) (k : A -> M B) :
  frame c -> credential_only c -> (forall a, credential_only (k a)) ->
  credential_only (bind c k).
Proof.
  intros Hf Hc Hk st st' Hs.
  destruct (Hc st st' Hs) as [Ho Ht].
  pose proof (Hf st) as F1. pose proof (Hf st') as F2.
  unfold outcome, trace, final_state, bind in *.
  destruct (c st) as [[r1 s1] t1], (c st') as [[r2 s2] t2]; simpl in *; subst.
  destruct r2 as [a | e]; [| split; reflexivity].
  destruct (Hk a st st' Hs) as [Ho' Ht'].
  unfold outcome, trace in *.
  destruct (k a st) as [[r3 s3] t3], (k a st') as [[r4 s4] t4]; simpl in *; subst.
  split; reflexivity.
Qed.

Lemma credential_only_catch (c : M A) (h : exn -> M A) :
  frame c -> credential_only c -> (forall e, credential_only (h e)) ->
  credential_only (catch c h).
Proof.
  intros Hf Hc Hh st st' Hs.
  destruct (Hc st st' Hs) as [Ho Ht].
  pose proof (Hf st) as F1. pose proof (Hf st') as F2.
  unfold outcome, trace, final_state, catch in *.
  destruct (c st) as [[r1 s1] t1], (c st') as [[r2 s2] t2]; simpl in *; subst.
  destruct r2 as [a | e]; [split; reflexivity |].
  destruct (Hh e st st' Hs) as [Ho' Ht'].
  unfold outcome, trace in *.
  destruct (h e st) as [[r3 s3] t3], (h e st') as [[r4 s4] t4]; simpl in *; subst.
  split; reflexivity.
Qed.

Lemma emits_ret (P : event -> Prop) (a : A) : emits P (ret a).
Proof. intros st. constructor. Qed.

Lemma emits_raise (P : event -> Prop) (e : exn) : emits P (@raise A e).
Proof. intros st. constructor. Qed.

Lemma emits_bind (P : event -> Prop) (c : M A) (k : A -> M B) :
  emits P c -> (forall a, emits P (k a)) -> emits P (bind c k).
Proof.
  intros Hc Hk st. specialize (Hc st). unfold trace, bind in *.
  destruct (c st) as [[[a | e] st1] t1]; simpl in *; [| exact Hc].
  specialize (Hk a st1). unfold trace in Hk.
  destruct (k a st1) as [[r st2] t2]; simpl in *.
  apply Forall_app; split; assumption.
Qed.

Lemma emits_catch (P : event -> Prop) (c : M A) (h : exn -> M A) :
  emits P c -> (forall e, emits P (h e)) -> emits P (catch c h).
Proof.
  intros Hc Hh st. specialize (Hc st). unfold trace, catch in *.
  destruct (c st) as [[[a | e] st1] t1]; simpl in *; [exact Hc |].
  specialize (Hh e st1). unfold trace in Hh.
  destruct (h e st1) as [[r st2] t2]; simpl in *.
  apply Forall_app; split; assumption.
Qed.

End Combinators.

Section RelayCombinators.

Context (P : event -> Prop) {A B : Type}.

Lemma relay_ret (a : A) : relay_with P (ret a).
Proof.
  split; [apply frame_ret | split; [apply credential_only_ret | apply emits_ret]].
Qed.

Lemma relay_raise (e : exn) : relay_with P (@raise A e).
Proof.
  split; [apply frame_raise | split; [apply credential_only_raise | apply emits_raise]].
Qed.

Lemma relay_bind (c : M A) (k : A -> M B) :
  relay_with P c -> (forall a, relay_with P (k a)) -> relay_with P (bind c k).
Proof.
  intros (Fc & Cc & Ec) Hk. split; [| split].
  - apply frame_bind; [exact Fc | intros a; apply Hk].
  - apply credential_only_bind; [exact Fc | exact Cc | intros a; apply Hk].
  - apply emits_bind; [exact Ec | intros a; apply Hk].
Qed.

Lemma relay_catch (c : M A) (h : exn -> M A) :
  relay_with P c -> (forall e, relay_with P (h e)) -> relay_with P (catch c h).
Proof.
  intros (Fc & Cc & Ec) Hh. split; [| split].
  - apply frame_catch; [exact Fc | intros e; apply Hh].
  - apply credential_only_catch; [exact Fc | exact Cc | intros e; apply Hh].
  - apply emits_catch; [exact Ec | intros e; apply Hh].
Qed.

End RelayCombinators.

Create HintDb relay.
#[local] Hint Resolve relay_ret relay_raise : relay.

(** ** The framework layers *)

Section Framework.

Context (P : event -> Prop).

Lemma relay_request_handler {T : Type}
    (validate : option json -> list validation_error + T) (endpoint : T -> M json)
    (request : Request) :
  (forall model, relay_with P (endpoint model)) ->
  relay_with P (FastAPI.request_handler validate endpoint request).
Proof.
  intros He. unfold FastAPI.request_handler.
  apply relay_bind.
  - unfold FastAPI.read_body. destruct (req_payload request); auto with relay.
  - intros b. destruct (FastAPI.solve_body validate b) as [errors | model];
      [apply relay_raise |].
    apply relay_bind; [apply He | intros value; apply relay_ret].
Qed.

(** The router is as well behaved as the routes that match the request. *)
Lemma relay_router (rs : list FastAPI.Route) (request : Request) :
  Forall (fun r => FastAPI.full_match request r = true ->
                   relay_with P (FastAPI.route_app r request)) rs ->
  relay_with P (FastAPI.router rs request).
Proof.
  intros Hrs. unfold FastAPI.router.
  destruct (List.find (FastAPI.full_match request) rs) as [r |] eqn:Hfind.
  - apply find_some in Hfind as [Hin Hm].
    rewrite Forall_forall in Hrs. apply Hrs; [now apply list_elem_of_In | exact Hm].
  - destruct (List.find (FastAPI.partial_match request) rs); apply relay_raise.
Qed.

Lemma relay_exception_middleware (app : Request -> M Response) (request : Request) :
  relay_with P (app request) -> relay_with P (FastAPI.exception_middleware app request).
Proof.
  intros Ha. unfold FastAPI.exception_middleware.
  apply relay_catch; [exact Ha |].
  intros [| | | errors |]; try destruct (forallb error_renders errors); auto with relay.
Qed.

Lemma relay_server_error_middleware (app : Request -> M Response) (request : Request) :
  relay_with P (app request) -> relay_with P (FastAPI.server_error_middleware app request).
Proof.
  intros Ha. unfold FastAPI.server_error_middleware.
  apply relay_catch; [exact Ha | intros e; apply relay_ret].
Qed.

Lemma relay_cors_call (self : CORS.CORSMiddleware) (app : Request -> M Response)
    (request : Request) :
  relay_with P (app request) -> relay_with P (CORS.call self app request).
Proof.
  intros Ha. unfold CORS.call.
  destruct (headers_get "origin" (req_headers request)); [| exact Ha].
  destruct (_ && _)%bool; [apply relay_ret |].
  unfold CORS.simple_response.
  apply relay_bind; [exact Ha | intros message; apply relay_ret].
Qed.

Lemma relay_middleware (mws : list CORS.CORSMiddleware) (app : Request -> M Response)
    (request : Request) :
  relay_with P (app request) -> relay_with P (foldr CORS.call app mws request).
Proof.
  intros Ha. induction mws as [| mw mws IH]; simpl.
  - exact Ha.
  - apply relay_cors_call, IH.
Qed.

End Framework.

(** ** The program *)

Section ProgramLayers.

Context (provider : string -> json -> provider_error + ChatSession).

Lemma relay_getenv_credential : relay_with relay_event (os_getenv "OPENAI_API_KEY").
Proof.
  split; [| split].
  - intros st. reflexivity.
  - intros st st' Hs. unfold outcome, os_getenv; simpl. now rewrite Hs.
  - intros st. repeat constructor.
Qed.

Lemma relay_sessions_create (client : Index.OpenAI) (user : string) :
  relay_with relay_event
    (Index.sessions_create provider client
       (JObj [("workflow", JObj [("id", JStr Index.workflow_id)]);
              ("user", JStr user)])).
Proof.
  split; [| split].
  - intros st. reflexivity.
  - intros st st' _. split; reflexivity.
  - intros st. unfold trace, Index.sessions_create; simpl.
    constructor; [exists user; reflexivity | constructor].
Qed.

Lemma relay_get_openai_client : relay_with relay_event Index.get_openai_client.
Proof.
  unfold Index.get_openai_client.
  apply relay_bind; [apply relay_getenv_credential |].
  intros [key |]; [destruct (String.eqb key "") |]; auto with relay.
Qed.

Lemma relay_create_chatkit_session (req : Index.SessionRequest) :
  relay_with relay_event (Index.create_chatkit_session provider req).
Proof.
  unfold Index.create_chatkit_session.
  apply relay_bind; [apply relay_get_openai_client | intros client].
  apply relay_bind; [apply relay_sessions_create | intros session].
  apply relay_ret.
Qed.

(** Every request, whatever its method, path, headers and body, is served
    without a change of the process state, consulting the credential
    variable only, and with relay effects only. *)
Lemma relay_serve (request : Request) :
  relay_with relay_event (Index.serve provider request).
Proof.
  unfold Index.serve, FastAPI.build_middleware_stack.
  apply relay_server_error_middleware, relay_middleware.
  apply relay_exception_middleware, relay_router.
  unfold Index.app, FastAPI.post; simpl.
  constructor; [| constructor]. intros _; simpl.
  apply relay_request_handler, relay_create_chatkit_session.
Qed.

Lemma request_is_post (request : Request) :
  (String.eqb (path request) "/chatkit/session"
   && String.eqb (method request) "POST")%bool = true ->
  request = post_payload (req_headers request) (req_payload request).
Proof.
  destruct request as [m p hs b]; simpl.
  intros [Hp Hm]%andb_true_iff.
  apply String.eqb_eq in Hp, Hm. now subst.
Qed.

(** *** One run of the handler, and of the endpoint around it *)

Lemma create_run (req : Index.SessionRequest) (st : process) :
  Index.create_chatkit_session provider req st =
  let params := JObj [("workflow", JObj [("id", JStr Index.workflow_id)]);
                      ("user", JStr (Index.deviceId req))] in
  match environ st !! "OPENAI_API_KEY" with
  | None => (Raise (RuntimeError Index.key_missing_message), st, [GetEnv "OPENAI_API_KEY"])
  | Some key =>
      if String.eqb key ""
      then (Raise (RuntimeError Index.key_missing_message), st, [GetEnv "OPENAI_API_KEY"])
      else (match provider key params with
            | inr session => Return (JObj [("client_secret", JStr (client_secret session))])
            | inl e => Raise (OpenAIError e)
            end, st, [GetEnv "OPENAI_API_KEY"; SessionsCreate key params])
  end.
Proof.
  unfold Index.create_chatkit_session, Index.get_openai_client, Index.sessions_create,
    bind, os_getenv, ret, raise. simpl.
  destruct (environ st !! "OPENAI_API_KEY") as [key |]; [| reflexivity].
  destruct (String.eqb key ""); [reflexivity |]. simpl.
  destruct (provider key _); reflexivity.
Qed.

(** The handler raises nothing but its configuration error and the
    provider's errors. *)
Lemma create_raises (req : Index.SessionRequest) (st : process) (e : exn) :
  outcome (Index.create_chatkit_session provider req st) = Raise e ->
  e = RuntimeError Index.key_missing_message \/ exists pe, e = OpenAIError pe.
Proof.
  rewrite create_run; cbv zeta.
  destruct (environ st !! "OPENAI_API_KEY") as [key |];
    [destruct (String.eqb key "") |]; unfold outcome; simpl;
    try (intros [= <-]; now left).
  destruct (provider key _) as [pe | session]; intros [= <-]. right. now exists pe.
Qed.

Lemma serve_post hs p st :
  Index.serve provider (post_payload hs p) st =
  let inner :=
    FastAPI.exception_middleware
      (FastAPI.request_handler Index.validate_SessionRequest
         (Index.create_chatkit_session provider)) in
  FastAPI.server_error_middleware
    (fun request =>
       match headers_get "origin" hs with
       | Some _ => CORS.simple_response Index.cors inner request
       | None => inner request
       end) (post_payload hs p) st.
Proof. reflexivity. Qed.

Ltac open_stack :=
  rewrite serve_post; cbv zeta;
  unfold FastAPI.server_error_middleware, CORS.simple_response,
    FastAPI.exception_middleware, FastAPI.request_handler, FastAPI.read_body,
    catch, bind, refusal, rejection, forwarded;
  cbn [req_payload post_payload req_headers].

(** Without a usable credential the handler stops after reading the
    variable. *)
Lemma create_unconfigured (req : Index.SessionRequest) (st : process) :
  environ st !! "OPENAI_API_KEY" = None \/ environ st !! "OPENAI_API_KEY" = Some "" ->
  Index.create_chatkit_session provider req st =
  (Raise (RuntimeError Index.key_missing_message), st, [GetEnv "OPENAI_API_KEY"]).
Proof. rewrite create_run; cbv zeta. intros [-> | ->]; reflexivity. Qed.

(** With a credential the handler makes the one call and relays its
    outcome. *)
Lemma create_configured (req : Index.SessionRequest) (st : process) (key : string) :
  environ st !! "OPENAI_API_KEY" = Some key -> key <> "" ->
  let params := JObj [("workflow", JObj [("id", JStr Index.workflow_id)]);
                      ("user", JStr (Index.deviceId req))] in
  Index.create_chatkit_session provider req st =
  (match provider key params with
   | inr session => Return (JObj [("client_secret", JStr (client_secret session))])
   | inl e => Raise (OpenAIError e)
   end, st, [GetEnv "OPENAI_API_KEY"; SessionsCreate key params]).
Proof.
  intros Hkey Hne. rewrite create_run, Hkey; cbv zeta.
  destruct (String.eqb_spec key ""); [contradiction | reflexivity].
Qed.

(** A body the request handler refuses: the handler has not run, and the
    response is the refusal. *)
Lemma serve_post_refused hs p e st :
  FastAPI.admission Index.validate_SessionRequest p = inl e ->
  Index.serve provider (post_payload hs p) st = (Return (refusal hs e), st, []).
Proof.
  intros Ha. open_stack. unfold FastAPI.admission in Ha.
  destruct p as [b | pos msg |].
  - destruct (FastAPI.solve_body Index.validate_SessionRequest b) as [errors | model]
      eqn:Hs; [| discriminate].
    injection Ha as <-.
    destruct (headers_get "origin" hs); unfold ret, raise; cbv beta iota;
      rewrite Hs; cbv beta iota;
      destruct (forallb error_renders errors); reflexivity.
  - injection Ha as <-. destruct (headers_get "origin" hs); reflexivity.
  - injection Ha as <-. destruct (headers_get "origin" hs); reflexivity.
Qed.

(** A body that passes validation: the handler runs once on the validated
    model; what it returns is sent with status 200, what it raises becomes
    the plain 500. *)
Lemma serve_post_accepted hs p req st :
  FastAPI.admission Index.validate_SessionRequest p = inr req ->
  Index.serve provider (post_payload hs p) st =
  (Return match outcome (Index.create_chatkit_session provider req st) with
          | Return value => forwarded hs (JSONResponse (JSONContent value) 200 [])
          | Raise _ => PlainTextResponse "Internal Server Error" 500 []
          end,
   st, trace (Index.create_chatkit_session provider req st)).
Proof.
  intros Ha.
  pose proof (create_raises req st) as Hraise.
  pose proof (proj1 (relay_create_chatkit_session req) st) as Hframe.
  unfold outcome, trace, final_state in *.
  open_stack. unfold FastAPI.admission in Ha.
  destruct p as [b | pos msg |]; try discriminate.
  destruct (FastAPI.solve_body Index.validate_SessionRequest b) as [errors | model]
    eqn:Hs; [discriminate |].
  injection Ha as ->.
  destruct (headers_get "origin" hs); unfold ret at 1; cbv beta iota;
    rewrite Hs; cbv beta iota;
    (destruct (Index.create_chatkit_session provider req st) as [[[value | e] st1] t];
     simpl in Hframe, Hraise; subst st1;
     [| destruct (Hraise e eq_refl) as [-> | [pe ->]]]);
    unfold raise, ret; simpl; rewrite ?app_nil_r; reflexivity.
Qed.

(** The same for a decoded body. *)
Lemma serve_post_invalid hs b errors st :
  Index.validate_SessionRequest b = inl errors ->
  Index.serve provider (post_session hs b) st = (Return (rejection hs errors), st, []).
Proof.
  intros Hv. apply (serve_post_refused hs (payload_of b) (RequestValidationError errors)).
  unfold FastAPI.admission, payload_of, FastAPI.solve_body.
  destruct b; rewrite Hv; reflexivity.
Qed.

Lemma serve_post_valid hs b req st :
  Index.validate_SessionRequest b = inr req ->
  Index.serve provider (post_session hs b) st =
  (Return match outcome (Index.create_chatkit_session provider req st) with
          | Return value => forwarded hs (JSONResponse (JSONContent value) 200 [])
          | Raise _ => PlainTextResponse "Internal Server Error" 500 []
          end,
   st, trace (Index.create_chatkit_session provider req st)).
Proof.
  intros Hv. apply serve_post_accepted.
  unfold FastAPI.admission, payload_of, FastAPI.solve_body.
  destruct b; rewrite Hv; reflexivity.
Qed.

(** A request that is not a [POST] to the endpoint gets a response that
    does not depend on the process state, and has no effect. *)
Lemma serve_elsewhere (request : Request) :
  (String.eqb (path request) "/chatkit/session"
   && String.eqb (method request) "POST")%bool = false ->
  exists r, forall st, Index.serve provider request st = (Return r, st, []).
Proof.
  intros Hno.
  unfold Index.serve, FastAPI.build_middleware_stack, FastAPI.server_error_middleware,
    FastAPI.exception_middleware, FastAPI.router, CORS.call, CORS.simple_response,
    catch, bind.
  cbn [foldr FastAPI.user_middleware FastAPI.routes Index.app FastAPI.post
       FastAPI.add_middleware FastAPI.new app List.find].
  unfold FastAPI.full_match, FastAPI.partial_match.
  cbn [FastAPI.route_path FastAPI.route_methods str_in existsb].
  rewrite orb_false_r, Hno. clear Hno.
  destruct (String.eqb (path request) "/chatkit/session");
    destruct (headers_get "origin" (req_headers request));
    try destruct (_ && _)%bool; eexists; intros st; reflexivity.
Qed.

Lemma forwarded_status hs r : status_code (forwarded hs r) = status_code r.
Proof. unfold forwarded. destruct (headers_get "origin" hs); reflexivity. Qed.

Lemma forwarded_body hs r : resp_body (forwarded hs r) = resp_body r.
Proof. unfold forwarded. destruct (headers_get "origin" hs); reflexivity. Qed.

End ProgramLayers.

(** ** The claims *)

(** The success path, for any body that validates. *)
Lemma relay_success provider hs b req key session st :
  Index.validate_SessionRequest b = inr req ->
  environ st !! "OPENAI_API_KEY" = Some key -> key <> "" ->
  provider key (JObj [("workflow", JObj [("id", JStr Index.workflow_id)]);
                      ("user", JStr (Index.deviceId req))]) = inr session ->
  Index.create_chatkit_session provider req st =
    (Return (JObj [("client_secret", JStr (client_secret session))]), st,
     [GetEnv "OPENAI_API_KEY";
      SessionsCreate key (JObj [("workflow", JObj [("id", JStr Index.workflow_id)]);
                                ("user", JStr (Index.deviceId req))])])
  /\ Index.serve provider (post_session hs b) st =
     (Return (forwarded hs
                (JSONResponse
                   (JSONContent (JObj [("client_secret", JStr (client_secret session))]))
                   200 [])), st,
      [GetEnv "OPENAI_API_KEY";
       SessionsCreate key (JObj [("workflow", JObj [("id", JStr Index.workflow_id)]);
                                 ("user", JStr (Index.deviceId req))])]).
Proof.
  intros Hv Hkey Hne Hp.
  assert (Hrun := create_configured provider req st key Hkey Hne).
  cbv zeta in Hrun. rewrite Hp in Hrun.
  split; [exact Hrun |].
  rewrite (serve_post_valid provider hs b req st Hv), Hrun. reflexivity.
Qed.

(** C1: for a body [{"deviceId": d}] with [d] non-empty, a configured
    credential and a provider call that succeeds with a session whose
    client secret is [s], the handler returns exactly [{"client_secret": s}]
    (sent with status 200), and the one call made to the provider carries
    [user = d] together with the fixed workflow identifier. *)
Theorem C1_client_secret_relayed provider hs d key session st :
  d <> "" ->
  environ st !! "OPENAI_API_KEY" = Some key -> key <> "" ->
  provider key (JObj [("workflow", JObj [("id", JStr Index.workflow_id)]);
                      ("user", JStr d)]) = inr session ->
  let served := Index.serve provider (post_session hs (Some (JObj [("deviceId", JStr d)]))) st in
  outcome (Index.create_chatkit_session provider {| Index.deviceId := d |} st)
    = Return (JObj [("client_secret", JStr (client_secret session))])
  /\ (exists r, outcome served = Return r /\ status_code r = 200
        /\ resp_body r = JSONContent (JObj [("client_secret", JStr (client_secret session))]))
  /\ provider_calls (trace served)
     = [(key, JObj [("workflow", JObj [("id", JStr Index.workflow_id)]);
                    ("user", JStr d)])].
Proof.
  intros _ Hkey Hne Hp served.
  destruct (relay_success provider hs (Some (JObj [("deviceId", JStr d)]))
              {| Index.deviceId := d |} key session st eq_refl Hkey Hne Hp) as [Hc Hs].
  subst served. rewrite Hc, Hs. split; [reflexivity | split; [| reflexivity]].
  eexists. split; [reflexivity |].
  now rewrite forwarded_status, forwarded_body.
Qed.

Lemma C1_witness :
  outcome (Index.create_chatkit_session sample_provider
             {| Index.deviceId := "device-123" |} configured_process)
    = Return (JObj [("client_secret", JStr "cs_abc")])
  /\ (exists r, outcome (Index.serve sample_provider (post_session [] sample_body)
                           configured_process) = Return r
        /\ status_code r = 200
        /\ resp_body r = JSONContent (JObj [("client_secret", JStr "cs_abc")]))
  /\ provider_calls (trace (Index.serve sample_provider (post_session [] sample_body)
                              configured_process))
     = [("sk-test", JObj [("workflow", JObj [("id", JStr Index.workflow_id)]);
                          ("user", JStr "device-123")])].
Proof.
  apply (C1_client_secret_relayed sample_provider [] "device-123" "sk-test"
           sample_session configured_process);
    [discriminate | reflexivity | discriminate | reflexivity].
Defined.

(** C10: the body [{"deviceId": ""}] passes validation (no non-emptiness is
    enforced); with a configured credential and a provider call that
    succeeds, the handler runs, the provider call carries the empty string
    as user, and the caller receives the provider's client secret. *)
Theorem C10_empty_deviceId_accepted provider hs key session st :
  environ st !! "OPENAI_API_KEY" = Some key -> key <> "" ->
  provider key (JObj [("workflow", JObj [("id", JStr Index.workflow_id)]);
                      ("user", JStr "")]) = inr session ->
  let served := Index.serve provider (post_session hs (Some (JObj [("deviceId", JStr "")]))) st in
  Index.validate_SessionRequest (Some (JObj [("deviceId", JStr "")]))
    = inr {| Index.deviceId := "" |}
  /\ (exists r, outcome served = Return r /\ status_code r = 200
        /\ resp_body r = JSONContent (JObj [("client_secret", JStr (client_secret session))]))
  /\ (exists call, provider_calls (trace served) = [call]
        /\ user_of call = Some (JStr "")).
Proof.
  intros Hkey Hne Hp served.
  destruct (relay_success provider hs (Some (JObj [("deviceId", JStr "")]))
              {| Index.deviceId := "" |} key session st eq_refl Hkey Hne Hp) as [_ Hs].
  subst served. rewrite Hs. split; [reflexivity | split].
  - eexists. split; [reflexivity |]. now rewrite forwarded_status, forwarded_body.
  - eexists. split; reflexivity.
Qed.

Lemma C10_witness :
  Index.validate_SessionRequest (Some (JObj [("deviceId", JStr "")]))
    = inr {| Index.deviceId := "" |}
  /\ (exists r, outcome (Index.serve sample_provider
                           (post_session [] (Some (JObj [("deviceId", JStr "")])))
                           configured_process) = Return r
        /\ status_code r = 200
        /\ resp_body r = JSONContent (JObj [("client_secret", JStr "cs_abc")]))
  /\ (exists call,
        provider_calls (trace (Index.serve sample_provider
                                 (post_session [] (Some (JObj [("deviceId", JStr "")])))
                                 configured_process)) = [call]
        /\ user_of call = Some (JStr "")).
Proof.
  apply (C10_empty_deviceId_accepted sample_provider [] "sk-test" sample_session
           configured_process); [reflexivity | discriminate | reflexivity].
Defined.

(** Without a usable credential no request of any kind leads to a provider
    call, and the response does not depend on which way the credential is
    unusable. *)
Lemma serve_unconfigured provider request st st' :
  environ st !! "OPENAI_API_KEY" = None \/ environ st !! "OPENAI_API_KEY" = Some "" ->
  environ st' !! "OPENAI_API_KEY" = None \/ environ st' !! "OPENAI_API_KEY" = Some "" ->
  outcome (Index.serve provider request st) = outcome (Index.serve provider request st')
  /\ trace (Index.serve provider request st) = trace (Index.serve provider request st')
  /\ provider_calls (trace (Index.serve provider request st)) = [].
Proof.
  intros Hst Hst'.
  destruct (String.eqb (path request) "/chatkit/session"
            && String.eqb (method request) "POST")%bool eqn:Hm.
  - rewrite (request_is_post request Hm).
    destruct (FastAPI.admission Index.validate_SessionRequest (req_payload request))
      as [e | req] eqn:Ha.
    + rewrite !(serve_post_refused provider _ _ e _ Ha). repeat split.
    + rewrite !(serve_post_accepted provider _ _ req _ Ha).
      rewrite (create_unconfigured provider req st Hst),
        (create_unconfigured provider req st' Hst').
      repeat split.
  - destruct (serve_elsewhere provider request Hm) as [r Hr].
    rewrite !Hr. repeat split.
Qed.

(** C2: when the credential is absent from the environment, the handler
    raises its configuration error right after reading the variable; no
    provider call is made, for any request whatsoever; a request that
    reaches the handler is answered with the server-side error 500. *)
Theorem C2_absent_credential_fails_fast provider request hs b req st :
  environ st !! "OPENAI_API_KEY" = None ->
  Index.validate_SessionRequest b = inr req ->
  Index.create_chatkit_session provider req st
    = (Raise (RuntimeError Index.key_missing_message), st, [GetEnv "OPENAI_API_KEY"])
  /\ provider_calls (trace (Index.serve provider request st)) = []
  /\ (exists r, outcome (Index.serve provider (post_session hs b) st) = Return r
        /\ status_code r = 500 /\ is_server_error r = true
        /\ has_client_secret r = false).
Proof.
  intros Hkey Hv.
  assert (Hrun := create_unconfigured provider req st (or_introl Hkey)).
  split; [exact Hrun | split].
  - apply (serve_unconfigured provider request st st); now left.
  - rewrite (serve_post_valid provider hs b req st Hv), Hrun.
    eexists. split; [reflexivity |]. repeat split.
Qed.

Lemma C2_witness :
  Index.create_chatkit_session sample_provider {| Index.deviceId := "device-123" |}
    bare_process
    = (Raise (RuntimeError Index.key_missing_message), bare_process,
       [GetEnv "OPENAI_API_KEY"])
  /\ provider_calls (trace (Index.serve sample_provider post_preflight bare_process)) = []
  /\ (exists r, outcome (Index.serve sample_provider (post_session [] sample_body)
                           bare_process) = Return r
        /\ status_code r = 500 /\ is_server_error r = true
        /\ has_client_secret r = false).
Proof.
  apply (C2_absent_credential_fails_fast sample_provider post_preflight [] sample_body
           {| Index.deviceId := "device-123" |} bare_process); reflexivity.
Defined.

(** The response to a refused body never has a [client_secret]. *)
Lemma refusal_no_secret hs p e :
  FastAPI.admission Index.validate_SessionRequest p = inl e ->
  has_client_secret (refusal hs e) = false.
Proof.
  unfold FastAPI.admission, refusal, rejection, has_client_secret.
  destruct p as [b | pos msg |].
  - destruct (FastAPI.solve_body Index.validate_SessionRequest b) as [errors | model];
      [| discriminate].
    intros [= <-]. destruct (forallb error_renders errors); [| reflexivity].
    now rewrite forwarded_body.
  - intros [= <-]. cbn [forallb error_renders andb]. now rewrite forwarded_body.
  - intros [= <-]. now rewrite forwarded_body.
Qed.

(** A single validation error gives 422 when it renders and 500 when it
    does not. *)
Lemma rejection_status hs e :
  status_code (rejection hs [e]) = if error_renders e then 422 else 500.
Proof.
  unfold rejection. cbn [forallb]. rewrite andb_true_r.
  destruct (error_renders e); [apply forwarded_status | reflexivity].
Qed.

(** The status of the response to a refused body. *)
Lemma refusal_status hs p e :
  FastAPI.admission Index.validate_SessionRequest p = inl e ->
  status_code (refusal hs e)
  = if input_renders (echoed_input p)
    then match p with ParseFailure => 400 | _ => 422 end
    else 500.
Proof.
  unfold FastAPI.admission, FastAPI.solve_body, Index.validate_SessionRequest.
  destruct p as [[| j | text] | pos msg |].
  - intros [= <-]. apply rejection_status.
  - unfold echoed_input, deviceId_of.
    destruct j as [| | | | | | | | members];
      try (intros [= <-]; apply rejection_status).
    destruct (dict_get "deviceId" members) as [v |].
    + destruct v; intros [= <-]; apply rejection_status.
    + intros [= <-]. apply rejection_status.
  - intros [= <-]. apply rejection_status.
  - intros [= <-]. apply rejection_status.
  - intros [= <-]. unfold refusal. apply forwarded_status.
Qed.




(** C4: when the provider call raises, the handler lets the error through
    unchanged (no fallback value), the caller receives the server-side
    error 500 whose body has no [client_secret], and the provider was called
    exactly once (no retry). *)
Theorem C4_provider_error_propagates provider hs b req key e st :
  Index.validate_SessionRequest b = inr req ->
  environ st !! "OPENAI_API_KEY" = Some key -> key <> "" ->
  provider key (JObj [("workflow", JObj [("id", JStr Index.workflow_id)]);
                      ("user", JStr (Index.deviceId req))]) = inl e ->
  let served := Index.serve provider (post_session hs b) st in
  outcome (Index.create_chatkit_session provider req st) = Raise (OpenAIError e)
  /\ (exists r, outcome served = Return r /\ status_code r = 500
        /\ is_server_error r = true /\ has_client_secret r = false
        /\ resp_body r = TextContent "Internal Server Error")
  /\ provider_calls (trace served)
     = [(key, JObj [("workflow", JObj [("id", JStr Index.workflow_id)]);
                    ("user", JStr (Index.deviceId req))])].
Proof.
  intros Hv Hkey Hne Hp served.
  assert (Hrun := create_configured provider req st key Hkey Hne).
  cbv zeta in Hrun. rewrite Hp in Hrun.
  subst served. rewrite (serve_post_valid provider hs b req st Hv), Hrun.
  split; [reflexivity | split; [| reflexivity]].
  eexists. split; [reflexivity |]. repeat split.
Qed.

Lemma C4_witness :
  outcome (Index.create_chatkit_session failing_provider
             {| Index.deviceId := "device-123" |} configured_process)
    = Raise (OpenAIError (APIStatusError 401 "Incorrect API key provided"))
  /\ (exists r, outcome (Index.serve failing_provider (post_session [] sample_body)
                           configured_process) = Return r
        /\ status_code r = 500
        /\ is_server_error r = true /\ has_client_secret r = false
        /\ resp_body r = TextContent "Internal Server Error")
  /\ provider_calls (trace (Index.serve failing_provider (post_session [] sample_body)
                              configured_process))
     = [("sk-test", JObj [("workflow", JObj [("id", JStr Index.workflow_id)]);
                          ("user", JStr "device-123")])].
Proof.
  apply (C4_provider_error_propagates failing_provider [] sample_body
           {| Index.deviceId := "device-123" |} "sk-test"
           (APIStatusError 401 "Incorrect API key provided") configured_process);
    [reflexivity | reflexivity | discriminate | reflexivity].
Defined.

(** What relay effects say about the provider calls and the environment
    reads of a trace. *)
Lemma relay_calls_workflow (t : list event) (i : nat) (call : string * json) :
  Forall relay_event t -> provider_calls t !! i = Some call ->
  workflow_of call = Some (JObj [("id", JStr Index.workflow_id)]).
Proof.
  intros Ht Hi. apply list_elem_of_lookup_2 in Hi.
  apply list_elem_of_omap in Hi as (e & He & Hcall).
  rewrite Forall_forall in Ht. specialize (Ht e He).
  destruct e as [name | key params]; [discriminate |].
  injection Hcall as <-. destruct Ht as [user ->]. reflexivity.
Qed.


(** C5: take any two requests, served by any two processes against any
    provider behaviour.  Every provider call either of them makes carries
    the same workflow member, the fixed identifier of the program; it does
    not vary with the request. *)
Theorem C5_workflow_independent_of_request
    provider1 provider2 request1 request2 st1 st2 i j call1 call2 :
  provider_calls (trace (Index.serve provider1 request1 st1)) !! i = Some call1 ->
  provider_calls (trace (Index.serve provider2 request2 st2)) !! j = Some call2 ->
  workflow_of call1 = Some (JObj [("id", JStr Index.workflow_id)])
  /\ workflow_of call2 = workflow_of call1.
Proof.
  intros H1 H2.
  pose proof (proj2 (proj2 (relay_serve provider1 request1)) st1) as E1.
  pose proof (proj2 (proj2 (relay_serve provider2 request2)) st2) as E2.
  rewrite (relay_calls_workflow _ i call1 E1 H1), (relay_calls_workflow _ j call2 E2 H2).
  split; reflexivity.
Qed.

Lemma C5_witness :
  workflow_of ("sk-test", JObj [("workflow", JObj [("id", JStr Index.workflow_id)]);
                                ("user", JStr "device-123")])
    = Some (JObj [("id", JStr Index.workflow_id)])
  /\ workflow_of ("sk-test", JObj [("workflow", JObj [("id", JStr Index.workflow_id)]);
                                   ("user", JStr "")])
     = workflow_of ("sk-test", JObj [("workflow", JObj [("id", JStr Index.workflow_id)]);
                                     ("user", JStr "device-123")]).
Proof.
  apply (C5_workflow_independent_of_request sample_provider failing_provider
           (post_session [] sample_body)
           (post_session [("origin", "https://app.example")]
              (Some (JObj [("deviceId", JStr "")])))
           configured_process busy_process 0%nat 0%nat); reflexivity.
Defined.

(** C6: an invocation of the handler that returns has read the credential
    variable, has made exactly one provider call, and has done nothing
    else; it leaves the process state as it found it.  The same holds for
    the request served around it, which is answered with status 200. *)
Theorem C6_one_call_no_state_change provider hs b req value st :
  Index.validate_SessionRequest b = inr req ->
  outcome (Index.create_chatkit_session provider req st) = Return value ->
  let served := Index.serve provider (post_session hs b) st in
  (exists key params,
     trace (Index.create_chatkit_session provider req st)
       = [GetEnv "OPENAI_API_KEY"; SessionsCreate key params]
     /\ trace served = [GetEnv "OPENAI_API_KEY"; SessionsCreate key params])
  /\ List.length (provider_calls (trace served)) = 1%nat
  /\ final_state (Index.create_chatkit_session provider req st) = st
  /\ final_state served = st
  /\ (exists r, outcome served = Return r /\ status_code r = 200
        /\ resp_body r = JSONContent value).
Proof.
  intros Hv Hret served. subst served.
  pose proof (proj1 (relay_create_chatkit_session provider req) st) as Hframe.
  assert (exists key params,
             trace (Index.create_chatkit_session provider req st)
             = [GetEnv "OPENAI_API_KEY"; SessionsCreate key params]) as (key & params & Ht).
  { revert Hret. rewrite create_run; cbv zeta.
    destruct (environ st !! "OPENAI_API_KEY") as [key |];
      [destruct (String.eqb key "") |]; try discriminate.
    intros _. eexists _, _. reflexivity. }
  rewrite (serve_post_valid provider hs b req st Hv), Hret, Ht.
  split; [| split; [reflexivity | split; [exact Hframe | split; [reflexivity |]]]].
  - exists key, params. split; reflexivity.
  - eexists. split; [reflexivity |]. now rewrite forwarded_status, forwarded_body.
Qed.

Lemma C6_witness :
  (exists key params,
     trace (Index.create_chatkit_session sample_provider
              {| Index.deviceId := "device-123" |} busy_process)
       = [GetEnv "OPENAI_API_KEY"; SessionsCreate key params]
     /\ trace (Index.serve sample_provider (post_session [] sample_body) busy_process)
        = [GetEnv "OPENAI_API_KEY"; SessionsCreate key params])
  /\ List.length (provider_calls
               (trace (Index.serve sample_provider (post_session [] sample_body)
                         busy_process))) = 1%nat
  /\ final_state (Index.create_chatkit_session sample_provider
                    {| Index.deviceId := "device-123" |} busy_process) = busy_process
  /\ final_state (Index.serve sample_provider (post_session [] sample_body) busy_process)
     = busy_process
  /\ (exists r, outcome (Index.serve sample_provider (post_session [] sample_body)
                           busy_process) = Return r
        /\ status_code r = 200
        /\ resp_body r = JSONContent (JObj [("client_secret", JStr "cs_abc")])).
Proof.
  apply (C6_one_call_no_state_change sample_provider [] sample_body
           {| Index.deviceId := "device-123" |}
           (JObj [("client_secret", JStr "cs_abc")]) busy_process); reflexivity.
Defined.



(** C9: a credential variable that is set to the empty string is treated
    exactly like one that is not set: the handler raises the same
    configuration error after the same single read, every request gets the
    same response with the same effects, and no provider call is made. *)
Theorem C9_empty_credential_as_unset provider req request st :
  let st_empty := {| environ := <["OPENAI_API_KEY" := ""]> (environ st) |} in
  let st_unset := {| environ := delete "OPENAI_API_KEY" (environ st) |} in
  outcome (Index.create_chatkit_session provider req st_empty)
    = Raise (RuntimeError Index.key_missing_message)
  /\ outcome (Index.create_chatkit_session provider req st_unset)
     = Raise (RuntimeError Index.key_missing_message)
  /\ trace (Index.create_chatkit_session provider req st_empty)
     = trace (Index.create_chatkit_session provider req st_unset)
  /\ outcome (Index.serve provider request st_empty)
     = outcome (Index.serve provider request st_unset)
  /\ trace (Index.serve provider request st_empty)
     = trace (Index.serve provider request st_unset)
  /\ provider_calls (trace (Index.serve provider request st_empty)) = [].
Proof.
  intros st_empty st_unset.
  assert (environ st_empty !! "OPENAI_API_KEY" = Some "") as He
    by apply lookup_insert_eq.
  assert (environ st_unset !! "OPENAI_API_KEY" = None) as Hu
    by apply lookup_delete_eq.
  rewrite (create_unconfigured provider req st_empty (or_intror He)),
    (create_unconfigured provider req st_unset (or_introl Hu)).
  split; [reflexivity | split; [reflexivity | split; [reflexivity |]]].
  apply serve_unconfigured; [now right | now left].
Qed.

(** C8, as the program behaves: a cross-origin preflight ([OPTIONS] with an
    [Origin] and an [Access-Control-Request-Method] header) that asks for
    one of the methods DELETE, GET, HEAD, OPTIONS, PATCH, POST, PUT is
    answered with 200 by the CORS layer itself, without any effect.  The
    response allows the requesting origin, whatever it is, lists those
    seven methods, allows exactly the headers the request asked for,
    whatever they are, and enables credentials. *)
Theorem C8_preflight_allowed provider request origin requested_method st :
  method request = "OPTIONS" ->
  headers_get "origin" (req_headers request) = Some origin ->
  headers_get "access-control-request-method" (req_headers request)
    = Some requested_method ->
  str_in requested_method CORS.ALL_METHODS = true ->
  exists r,
    Index.serve provider request st = (Return r, st, [])
    /\ status_code r = 200
    /\ headers_get "access-control-allow-origin" (headers r) = Some origin
    /\ headers_get "access-control-allow-methods" (headers r)
       = Some "DELETE, GET, HEAD, OPTIONS, PATCH, POST, PUT"
    /\ headers_get "access-control-allow-headers" (headers r)
       = headers_get "access-control-request-headers" (req_headers request)
    /\ headers_get "access-control-allow-credentials" (headers r) = Some "true".
Proof.
  intros Hm Ho Hrm Hin.
  unfold Index.serve, FastAPI.build_middleware_stack, FastAPI.server_error_middleware, catch.
  cbn [foldr FastAPI.user_middleware Index.app FastAPI.post FastAPI.add_middleware
       FastAPI.new].
  unfold CORS.call, headers_mem. rewrite Ho, Hrm, Hm.
  cbn [String.eqb Ascii.eqb Bool.eqb andb ret].
  unfold CORS.preflight_response. rewrite Ho, Hrm.
  change (CORS.allow_methods Index.cors) with CORS.ALL_METHODS.
  cbn [from_option id]. rewrite Hin.
  destruct (headers_get "access-control-request-headers" (req_headers request))
    as [requested_headers |];
    (eexists; split; [reflexivity | repeat split]).
Qed.

Lemma C8_witness :
  exists r,
    Index.serve sample_provider post_preflight bare_process = (Return r, bare_process, [])
    /\ status_code r = 200
    /\ headers_get "access-control-allow-origin" (headers r) = Some "https://app.example"
    /\ headers_get "access-control-allow-methods" (headers r)
       = Some "DELETE, GET, HEAD, OPTIONS, PATCH, POST, PUT"
    /\ headers_get "access-control-allow-headers" (headers r)
       = headers_get "access-control-request-headers" (req_headers post_preflight)
    /\ headers_get "access-control-allow-credentials" (headers r) = Some "true".
Proof.
  apply (C8_preflight_allowed sample_provider post_preflight "https://app.example" "POST"
           bare_process); reflexivity.
Defined.

(** C8, as stated, fails: a preflight that asks for a method outside the
    seven, here PROPFIND, is refused with status 400. *)
Lemma C8_preflight_propfind_refused :
  is_preflight propfind_preflight = true
  /\ outcome (Index.serve sample_provider propfind_preflight bare_process)
     = Return {| status_code := 400;
                 headers := [("vary", "Origin");
                             ("access-control-allow-methods",
                              "DELETE, GET, HEAD, OPTIONS, PATCH, POST, PUT");
                             ("access-control-max-age", "600");
                             ("access-control-allow-credentials", "true");
                             ("access-control-allow-origin", "https://app.example")];
                 resp_body := TextContent "Disallowed CORS method" |}.
Proof. split; reflexivity. Qed.

(** * Further properties of the program *)

(** ** Auxiliary facts *)

Lemma validate_deviceId (b : option json) (req : Index.SessionRequest) :
  Index.validate_SessionRequest b = inr req <->
  deviceId_of b = Some (JStr (Index.deviceId req)).
Proof.
  destruct req as [d]. unfold Index.validate_SessionRequest, deviceId_of. simpl.
  destruct b as [j |]; [| split; discriminate].
  destruct j; try (split; discriminate).
  destruct (dict_get "deviceId" members) as [v |]; [| split; discriminate].
  destruct v; split; try discriminate; intros [= ->]; reflexivity.
Qed.

(** The preflight response under the program's configuration: origin and
    headers always pass, the method decides. *)
Lemma preflight_cors (hs : list (string * string)) :
  CORS.preflight_response Index.cors hs =
  let base :=
    dict_set "Access-Control-Allow-Origin" (default "" (headers_get "origin" hs))
      (CORS.preflight_headers Index.cors) in
  let allowed :=
    match headers_get "access-control-request-headers" hs with
    | Some rh => dict_set "Access-Control-Allow-Headers" rh base
    | None => base
    end in
  if str_in (default "" (headers_get "access-control-request-method" hs)) CORS.ALL_METHODS
  then PlainTextResponse "OK" 200 allowed
  else PlainTextResponse "Disallowed CORS method" 400 allowed.
Proof.
  unfold CORS.preflight_response.
  change (CORS.allow_methods Index.cors) with CORS.ALL_METHODS.
  change (CORS.is_allowed_origin Index.cors
            (default "" (headers_get "origin" hs))) with true.
  change (CORS.preflight_explicit_allow_origin Index.cors) with true.
  change (CORS.allow_all_headers Index.cors) with true.
  cbv zeta.
  destruct (headers_get "access-control-request-headers" hs);
    destruct (str_in _ CORS.ALL_METHODS); reflexivity.
Qed.

(** A request to the endpoint's path under another method never reaches the
    handler: the router raises 405 for it, under the CORS layer. *)
Lemma serve_endpoint_other_stack provider (request : Request) st :
  path request = "/chatkit/session" -> method request <> "POST" ->
  Index.serve provider request st =
  FastAPI.server_error_middleware
    (CORS.call Index.cors
       (FastAPI.exception_middleware
          (fun _ => raise (HTTPException 405 "Method Not Allowed" [("Allow", "POST")]))))
    request st.
Proof.
  intros Hp Hm. apply String.eqb_neq in Hm.
  unfold Index.serve, FastAPI.build_middleware_stack, FastAPI.server_error_middleware,
    FastAPI.exception_middleware, FastAPI.router, CORS.call, CORS.simple_response,
    catch, bind.
  cbn [foldr FastAPI.user_middleware FastAPI.routes Index.app FastAPI.post
       FastAPI.add_middleware FastAPI.new app List.find].
  unfold FastAPI.full_match, FastAPI.partial_match.
  cbn [FastAPI.route_path FastAPI.route_methods str_in existsb].
  rewrite orb_false_r, Hp, Hm. reflexivity.
Qed.

(** The response to such a request is fixed by the request alone, and
    serving it has no effect.  It is the preflight answer or 405. *)
Lemma serve_endpoint_other (request : Request) :
  path request = "/chatkit/session" -> method request <> "POST" ->
  exists r,
    (forall provider st, Index.serve provider request st = (Return r, st, []))
    /\ has_client_secret r = false
    /\ (status_code r = 200 \/ status_code r = 400 \/ status_code r = 405)
    /\ (status_code r = 405 <-> is_preflight request = false).
Proof.
  intros Hp Hm.
  pose proof (fun provider st => serve_endpoint_other_stack provider request st Hp Hm)
    as Hserve.
  unfold is_preflight, headers_mem.
  destruct (headers_get "origin" (req_headers request)) as [origin |] eqn:Ho.
  - destruct (String.eqb (method request) "OPTIONS"
              && headers_mem "access-control-request-method" (req_headers request))%bool
      eqn:Hpre.
    + exists (CORS.preflight_response Index.cors (req_headers request)).
      split; [| rewrite preflight_cors; cbv zeta].
      * intros provider st. rewrite Hserve.
        unfold FastAPI.server_error_middleware, CORS.call, catch.
        rewrite Ho, Hpre. reflexivity.
      * apply andb_true_iff in Hpre as [-> Hrm]. unfold headers_mem in Hrm.
        destruct (headers_get "access-control-request-method" (req_headers request));
          [| discriminate].
        destruct (str_in _ CORS.ALL_METHODS); simpl;
          (split; [reflexivity | split; [auto | split; discriminate]]).
    + eexists. split.
      * intros provider st. rewrite Hserve.
        unfold FastAPI.server_error_middleware, FastAPI.exception_middleware, CORS.call,
          CORS.simple_response, catch, bind.
        rewrite Ho, Hpre. reflexivity.
      * unfold headers_mem in Hpre. simpl.
        split; [reflexivity | split; [auto | split; [intros _ | reflexivity]]].
        destruct (String.eqb (method request) "OPTIONS"); [| reflexivity].
        simpl in *. exact Hpre.
  - eexists. split.
    + intros provider st. rewrite Hserve.
      unfold FastAPI.server_error_middleware, FastAPI.exception_middleware, CORS.call, catch.
      rewrite Ho. reflexivity.
    + simpl. rewrite andb_false_r.
      split; [reflexivity | split; [auto | split; reflexivity]].
Qed.

(** A request to the endpoint's path is a [POST] with some headers and body,
    or comes under another method. *)
Lemma endpoint_request_cases (request : Request) :
  path request = "/chatkit/session" ->
  request = post_payload (req_headers request) (req_payload request)
  \/ method request <> "POST".
Proof.
  intros Hp. destruct (String.eqb_spec (method request) "POST") as [Hm | Hm];
    [left | now right].
  destruct request as [m p hs b]; simpl in *. now subst.
Qed.

(** An accepted body is a decoded object whose [deviceId] is the string of
    the validated model. *)
Lemma accepted_deviceId (request : Request) (req : Index.SessionRequest) :
  FastAPI.admission Index.validate_SessionRequest (req_payload request) = inr req ->
  deviceId_of (body request) = Some (JStr (Index.deviceId req)).
Proof.
  unfold body, FastAPI.admission, FastAPI.solve_body.
  destruct (req_payload request) as [[| j | text] | pos msg |]; try discriminate.
  destruct (Index.validate_SessionRequest (Some j)) as [errors | model] eqn:Hv;
    [discriminate |].
  intros [= ->]. now apply validate_deviceId.
Qed.

(** ** The properties *)

(** X1: of a decoded request body only the [deviceId] member matters.  Two
    bodies that [json.loads] decodes and that have the same string
    [deviceId] are served in exactly the same way: same response, same
    effects, same provider call; members named like the provider's
    parameters or like the response change nothing. *)
Theorem X1_only_deviceId_matters provider hs b1 b2 d st :
  deviceId_of b1 = Some (JStr d) ->
  deviceId_of b2 = Some (JStr d) ->
  Index.serve provider (post_session hs b1) st
  = Index.serve provider (post_session hs b2) st.
Proof.
  intros H1 H2.
  apply (validate_deviceId b1 {| Index.deviceId := d |}) in H1.
  apply (validate_deviceId b2 {| Index.deviceId := d |}) in H2.
  now rewrite (serve_post_valid provider hs b1 _ st H1),
    (serve_post_valid provider hs b2 _ st H2).
Qed.

Lemma X1_witness :
  Index.serve sample_provider (post_session cross_origin sample_body) configured_process
  = Index.serve sample_provider (post_session cross_origin crowded_body) configured_process.
Proof.
  apply (X1_only_deviceId_matters sample_provider cross_origin sample_body crowded_body
           "device-123" configured_process); reflexivity.
Defined.

(** X2: a response to the endpoint has a [client_secret] only if the
    request was a [POST] with a string [deviceId], the credential was set
    and not empty, and the provider call made for that [deviceId] returned a
    session; the response then is 200 and its body is exactly that
    session's secret.  No other path of the program produces the field. *)
Theorem X2_client_secret_only_from_provider provider request st r :
  path request = "/chatkit/session" ->
  outcome (Index.serve provider request st) = Return r ->
  has_client_secret r = true ->
  exists d key session,
    method request = "POST"
    /\ deviceId_of (body request) = Some (JStr d)
    /\ environ st !! "OPENAI_API_KEY" = Some key /\ key <> ""
    /\ provider key (JObj [("workflow", JObj [("id", JStr Index.workflow_id)]);
                           ("user", JStr d)]) = inr session
    /\ status_code r = 200
    /\ resp_body r = JSONContent (JObj [("client_secret", JStr (client_secret session))]).
Proof.
  intros Hp Hout Hsecret.
  destruct (endpoint_request_cases request Hp) as [Hpost | Hm].
  - rewrite Hpost in Hout.
    destruct (FastAPI.admission Index.validate_SessionRequest (req_payload request))
      as [e | req] eqn:Ha.
    + rewrite (serve_post_refused provider _ _ e st Ha) in Hout.
      injection Hout as <-.
      rewrite (refusal_no_secret _ _ e Ha) in Hsecret. discriminate.
    + rewrite (serve_post_accepted provider _ _ req st Ha) in Hout.
      rewrite create_run in Hout; cbv zeta in Hout.
      destruct (environ st !! "OPENAI_API_KEY") as [key |] eqn:Hkey;
        [destruct (String.eqb_spec key "") as [| Hne] |];
        try (injection Hout as <-; discriminate).
      destruct (provider key _) as [e | session] eqn:Hprov;
        [injection Hout as <-; discriminate |].
      injection Hout as <-.
      exists (Index.deviceId req), key, session.
      rewrite forwarded_status, forwarded_body.
      repeat split; try assumption.
      * now rewrite Hpost.
      * now apply accepted_deviceId.
  - destruct (serve_endpoint_other request Hp Hm) as (r0 & Hr0 & Hno & _).
    rewrite Hr0 in Hout. injection Hout as <-. congruence.
Qed.

Lemma X2_witness :
  exists d key session,
    method (post_session cross_origin crowded_body) = "POST"
    /\ deviceId_of (body (post_session cross_origin crowded_body)) = Some (JStr d)
    /\ environ busy_process !! "OPENAI_API_KEY" = Some key /\ key <> ""
    /\ sample_provider key (JObj [("workflow", JObj [("id", JStr Index.workflow_id)]);
                                  ("user", JStr d)]) = inr session
    /\ status_code
         (forwarded cross_origin
            (JSONResponse (JSONContent (JObj [("client_secret", JStr "cs_abc")])) 200 []))
       = 200
    /\ resp_body
         (forwarded cross_origin
            (JSONResponse (JSONContent (JObj [("client_secret", JStr "cs_abc")])) 200 []))
       = JSONContent (JObj [("client_secret", JStr (client_secret session))]).
Proof.
  apply (X2_client_secret_only_from_provider sample_provider
           (post_session cross_origin crowded_body) busy_process); reflexivity.
Defined.

(** X3: every request to the endpoint's path gets a response; its status is
    one of 200, 400, 405, 422, 500, and the process state is left as it
    was.  The effects of serving it are nothing at all, or the one read of
    the credential variable, or that read followed by one provider call:
    never a second call, never a call without the read before it. *)
Theorem X3_endpoint_always_answers provider request st :
  path request = "/chatkit/session" ->
  let served := Index.serve provider request st in
  (exists r, outcome served = Return r
     /\ (status_code r = 200 \/ status_code r = 400 \/ status_code r = 405
         \/ status_code r = 422 \/ status_code r = 500))
  /\ final_state served = st
  /\ (trace served = []
      \/ trace served = [GetEnv "OPENAI_API_KEY"]
      \/ exists key params,
           trace served = [GetEnv "OPENAI_API_KEY"; SessionsCreate key params]).
Proof.
  intros Hp served. subst served.
  destruct (endpoint_request_cases request Hp) as [Hpost | Hm].
  - rewrite Hpost.
    destruct (FastAPI.admission Index.validate_SessionRequest (req_payload request))
      as [e | req] eqn:Ha.
    + rewrite (serve_post_refused provider _ _ e st Ha).
      split; [| split; [reflexivity | now left]].
      eexists. split; [reflexivity |]. rewrite (refusal_status _ _ e Ha).
      destruct (input_renders _); [destruct (req_payload request) |]; auto.
    + rewrite (serve_post_accepted provider _ _ req st Ha).
      rewrite create_run; cbv zeta.
      destruct (environ st !! "OPENAI_API_KEY") as [key |];
        [destruct (String.eqb key ""); [| destruct (provider key _)] |];
        (split; [eexists; split; [reflexivity |] | split; [reflexivity |]]);
        simpl; rewrite ?forwarded_status; simpl; eauto 10.
  - destruct (serve_endpoint_other request Hp Hm) as (r & Hr & _ & Hstatus & _).
    rewrite Hr. split; [| split; [reflexivity | now left]].
    exists r. split; [reflexivity |]. tauto.
Qed.

Lemma X3_witness :
  (exists r, outcome (Index.serve failing_provider get_session busy_process) = Return r
     /\ (status_code r = 200 \/ status_code r = 400 \/ status_code r = 405
         \/ status_code r = 422 \/ status_code r = 500))
  /\ final_state (Index.serve failing_provider get_session busy_process) = busy_process
  /\ (trace (Index.serve failing_provider get_session busy_process) = []
      \/ trace (Index.serve failing_provider get_session busy_process)
         = [GetEnv "OPENAI_API_KEY"]
      \/ exists key params,
           trace (Index.serve failing_provider get_session busy_process)
           = [GetEnv "OPENAI_API_KEY"; SessionsCreate key params]).
Proof.
  apply (X3_endpoint_always_answers failing_provider get_session busy_process).
  reflexivity.
Defined.

(** X4: the endpoint is registered for [POST] only.  A request to its path
    under any other method that is not a preflight gets 405 with
    [Allow: POST] and the detail "Method Not Allowed"; the handler does not
    run, so the answer is the same with or without a credential. *)
Theorem X4_other_methods_not_allowed provider request st :
  path request = "/chatkit/session" ->
  method request <> "POST" ->
  is_preflight request = false ->
  exists r,
    Index.serve provider request st = (Return r, st, [])
    /\ status_code r = 405
    /\ headers_get "allow" (headers r) = Some "POST"
    /\ resp_body r = JSONContent (JObj [("detail", JStr "Method Not Allowed")]).
Proof.
  intros Hp Hm Hpre.
  rewrite (serve_endpoint_other_stack provider request st Hp Hm).
  unfold FastAPI.server_error_middleware, FastAPI.exception_middleware, CORS.call,
    CORS.simple_response, CORS.send, catch, bind.
  unfold is_preflight, headers_mem in Hpre. unfold headers_mem at 1.
  destruct (headers_get "origin" (req_headers request)) as [origin |].
  - rewrite andb_true_r in Hpre. rewrite Hpre.
    destruct (headers_mem "cookie" (req_headers request));
      eexists; (split; [reflexivity | repeat split]).
  - eexists. split; [reflexivity | repeat split].
Qed.

Lemma X4_witness :
  exists r,
    Index.serve sample_provider get_session bare_process = (Return r, bare_process, [])
    /\ status_code r = 405
    /\ headers_get "allow" (headers r) = Some "POST"
    /\ resp_body r = JSONContent (JObj [("detail", JStr "Method Not Allowed")]).
Proof.
  apply (X4_other_methods_not_allowed sample_provider get_session bare_process);
    [reflexivity | discriminate | reflexivity].
Defined.

(** X6: when the handler raises, be it for the missing credential or for a
    provider error, the 500 response is produced outside the CORS layer and
    carries no header of it at all, also for a request with an [Origin]
    header. *)
Theorem X6_server_error_without_cors_headers provider hs b req e st :
  Index.validate_SessionRequest b = inr req ->
  outcome (Index.create_chatkit_session provider req st) = Raise e ->
  exists r,
    outcome (Index.serve provider (post_session hs b) st) = Return r
    /\ status_code r = 500
    /\ headers r = []
    /\ headers_get "access-control-allow-origin" (headers r) = None
    /\ headers_get "access-control-allow-credentials" (headers r) = None.
Proof.
  intros Hv Hraise.
  rewrite (serve_post_valid provider hs b req st Hv), Hraise.
  eexists. split; [reflexivity | repeat split].
Qed.

Lemma X6_witness :
  exists r,
    outcome (Index.serve unreachable_provider (post_session cross_origin_cookie sample_body)
               configured_process) = Return r
    /\ status_code r = 500
    /\ headers r = []
    /\ headers_get "access-control-allow-origin" (headers r) = None
    /\ headers_get "access-control-allow-credentials" (headers r) = None.
Proof.
  apply (X6_server_error_without_cors_headers unreachable_provider cross_origin_cookie
           sample_body {| Index.deviceId := "device-123" |}
           (OpenAIError (APIConnectionError "Connection error.")) configured_process);
    reflexivity.
Defined.

(** X7: of what the provider does, the caller sees the client secret and
    nothing else.  Two provider behaviours that succeed on the same calls
    and issue the same secret give every request to the endpoint the same
    response and the same effects: the other fields of the session do not
    reach the caller, and neither does the kind or the message of a
    provider error. *)
Theorem X7_only_the_secret_is_relayed provider1 provider2 request st :
  same_secrets provider1 provider2 ->
  path request = "/chatkit/session" ->
  Index.serve provider1 request st = Index.serve provider2 request st.
Proof.
  intros Hsame Hp.
  destruct (endpoint_request_cases request Hp) as [Hpost | Hm].
  - rewrite Hpost.
    destruct (FastAPI.admission Index.validate_SessionRequest (req_payload request))
      as [e | req] eqn:Ha.
    + now rewrite !(serve_post_refused _ _ _ e st Ha).
    + rewrite !(serve_post_accepted _ _ _ req st Ha), !create_run; cbv zeta.
      destruct (environ st !! "OPENAI_API_KEY") as [key |];
        [destruct (String.eqb key "") |]; try reflexivity.
      specialize (Hsame key (JObj [("workflow", JObj [("id", JStr Index.workflow_id)]);
                                   ("user", JStr (Index.deviceId req))])).
      destruct (provider1 key _) as [e1 | s1], (provider2 key _) as [e2 | s2];
        try contradiction; simpl; [reflexivity | now rewrite Hsame].
  - destruct (serve_endpoint_other request Hp Hm) as (r & Hr & _).
    now rewrite !Hr.
Qed.

Lemma X7_witness :
  Index.serve sample_provider (post_session cross_origin sample_body) configured_process
  = Index.serve renewing_provider (post_session cross_origin sample_body)
      configured_process
  /\ Index.serve failing_provider (post_session cross_origin sample_body)
       configured_process
     = Index.serve unreachable_provider (post_session cross_origin sample_body)
         configured_process.
Proof.
  split.
  - apply (X7_only_the_secret_is_relayed sample_provider renewing_provider
             (post_session cross_origin sample_body) configured_process);
      [intros key params; reflexivity | reflexivity].
  - apply (X7_only_the_secret_is_relayed failing_provider unreachable_provider
             (post_session cross_origin sample_body) configured_process);
      [intros key params; exact I | reflexivity].
Defined.
